(** * Grading of a submitted quiz

    A shallow embedding of the handler [router.post('/:id/submit')] of
    [src/routes/quizRoutes.js] (lines 110-186), from the point where the quiz
    document has been fetched (line 128) to the response (lines 173-185).

    - JavaScript strings are [string]; a value that is a string or [undefined]
      is an [option string] ([None] for [undefined]).
    - JavaScript numbers are IEEE 754 binary64 values: [float], the primitive
      floats of the kernel, so that the division of line 168 and the
      comparison of line 169 are the ones the program runs.
    - A [TypeError] raised by a method call on [undefined] is an abrupt
      completion [Throw]; the [try]/[catch] of lines 121-185 turns it into the
      status 500 response.
    - The variables the callback of [forEach] closes over ([quiz], [answers],
      [score], [totalQuestions], [results]) are threaded as an explicit
      environment [Env].
    - [String.prototype.toLowerCase] belongs to the language, not to the
      repository: it is a parameter of the development.
    - The request body is typed as line 112 documents it: [answers] is an
      array of objects whose [questionId] and [userAnswer] are strings
      ([userAnswer] possibly missing). The documents of the quiz are typed as
      the handler reads them: [id], [type], [questionText] and the [text] of
      an option are strings, [isCorrect] a boolean, [options] an array,
      [correctAnswer] a string or [undefined], [passPercentage] a number. *)

From Stdlib Require Import List String Ascii Bool Arith Lia ZArith Floats Uint63.
From Stdlib Require Import Permutation.
Import ListNotations.

Local Open Scope string_scope.
Local Open Scope list_scope.

(** ** Completions: normal values and thrown errors *)

Inductive JsError : Type :=
| TypeError.

Inductive Completion (A : Type) : Type :=
| Normal (a : A)
| Throw (e : JsError).

Arguments Normal {A} a.
Arguments Throw {A} e.

Definition bind {A B : Type} (c : Completion A) (k : A -> Completion B) : Completion B :=
  match c with
  | Normal a => k a
  | Throw e => Throw e
  end.

Notation "x <- c ;; k" := (bind c (fun x => k))
  (at level 61, c at next level, right associativity).

(** [array.forEach(callback)], the callback updating the environment [S] it
    closes over; a throw inside the callback leaves the loop. *)
Fixpoint forEach {S A : Type} (callback : A -> S -> Completion S)
         (array : list A) (env : S) : Completion S :=
  match array with
  | [] => Normal env
  | x :: rest => env' <- callback x env ;; forEach callback rest env'
  end.

(** ** JavaScript values of the handler *)

(** Truthiness of a string-or-undefined: [undefined] and [''] are falsy. *)
Definition truthy (v : option string) : bool :=
  match v with
  | Some s => negb (s =? "")
  | None => false
  end.

(** [a === b] on strings-or-undefined. *)
Definition strictEq (a b : option string) : bool :=
  match a, b with
  | Some x, Some y => x =? y
  | None, None => true
  | _, _ => false
  end.

(** [o?.field]: [undefined] when [o] is [undefined]. *)
Definition optChain {A B : Type} (o : option A) (field : A -> option B) : option B :=
  match o with
  | Some a => field a
  | None => None
  end.

(** The number a count is: exact below 2^53, and an array holds fewer than
    2^32 elements. *)
Definition number (n : nat) : float :=
  PrimFloat.of_uint63 (Uint63.of_Z (Z.of_nat n)).

(** An instance of the lowercasing parameter for running the model: the
    restriction of [toLowerCase] to ASCII letters. *)
Definition asciiLower (c : ascii) : ascii :=
  let n := nat_of_ascii c in
  if Nat.leb 65 n && Nat.leb n 90 then ascii_of_nat (n + 32) else c.

Fixpoint asciiToLowerCase (s : string) : string :=
  match s with
  | EmptyString => EmptyString
  | String c rest => String (asciiLower c) (asciiToLowerCase rest)
  end.

(** ** Data model *)

(** An element of [question.options]. *)
Module Opt.
Record t : Type := mk { text : string; isCorrect : bool }.
End Opt.

Module Question.
Record t : Type := mk {
  id : string;
  type : string;
  questionText : string;
  options : list Opt.t;
  correctAnswer : option string
}.
End Question.

Module Quiz.
Record t : Type := mk {
  questions : list Question.t;
  passPercentage : float
}.
End Quiz.

(** An element of [req.body.answers] (line 112):
  [{ questionId: '...', userAnswer: '...' }]; [userAnswer] may be left out. *)
Module Answer.
Record t : Type := mk { questionId : string; userAnswer : option string }.
End Answer.

(** An element of [results] (lines 159-165). *)
Module Entry.
Record t : Type := mk {
  questionId : string;
  questionText : string;
  userAnswer : option string;
  correctAnswer : string;
  isCorrect : bool
}.
End Entry.

(** The body of the status 200 response (lines 173-180). *)
Module Graded.
Record t : Type := mk {
  score : nat;
  totalQuestions : nat;
  percentage : float;
  passed : bool;
  results : list Entry.t
}.
End Graded.

Inductive Response : Type :=
| Status200 (body : Graded.t)
| Status500 (message : string).

(** The variables of the handler that the callback of line 132 can reach. *)
Record Env : Type := mkEnv {
quiz : Quiz.t;
answers : list Answer.t;
score : nat;
totalQuestions : nat;
results : list Entry.t
}.

(** ** The handler *)

Section Handler.

Variable toLowerCase : string -> string.

(** [v.toLowerCase()]: a [TypeError] when [v] is [undefined]. *)
Definition callToLowerCase (v : option string) : Completion string :=
  match v with
  | Some s => Normal (toLowerCase s)
  | None => Throw TypeError
  end.

(** Line 134: [answers.find(a => a.questionId === question.id)?.userAnswer]. *)
Definition findUserAnswer (answers : list Answer.t) (question : Question.t)
  : option string :=
  optChain
    (find (fun a => Answer.questionId a =? Question.id question) answers)
    Answer.userAnswer.

(** Lines 134-165: the entry the callback pushes for [question]. The pair
    bound first is ([isCorrect], [correctAnswerText]) as lines 135-154 leave
    them. *)
Definition gradeQuestion (answers : list Answer.t) (question : Question.t)
  : Completion Entry.t :=
  let userAnswer := findUserAnswer answers question in
  verdict <-
    (if (Question.type question =? "multiple-choice")
        || (Question.type question =? "true-false")
     then
       let correctOption :=
         find (fun opt => Opt.isCorrect opt) (Question.options question) in
       match correctOption with
       | Some opt =>
           Normal (strictEq userAnswer (Some (Opt.text opt)), Opt.text opt)
       | None => Normal (false, "")
       end
     else if Question.type question =? "short-answer" then
       match Question.correctAnswer question with
       | Some correctAnswer =>
           if negb (correctAnswer =? "") then
             if truthy userAnswer then
               lowered <- callToLowerCase userAnswer ;;
               Normal (lowered =? toLowerCase correctAnswer, correctAnswer)
             else Normal (false, correctAnswer)
           else Normal (false, "")
       | None => Normal (false, "")
       end
     else Normal (false, "")) ;;
  Normal
    {| Entry.questionId := Question.id question;
       Entry.questionText := Question.questionText question;
       Entry.userAnswer := userAnswer;
       Entry.correctAnswer := snd verdict;
       Entry.isCorrect := fst verdict |}.

(** Lines 132-166: one call of the callback; lines 156-158 increment
    [score], line 159 pushes the entry. *)
Definition forEachBody (question : Question.t) (env : Env) : Completion Env :=
  entry <- gradeQuestion (answers env) question ;;
  Normal
    {| quiz := quiz env;
       answers := answers env;
       score := if Entry.isCorrect entry then S (score env) else score env;
       totalQuestions := totalQuestions env;
       results := results env ++ [entry] |}.

(** Lines 128-180: the graded result together with the environment the
    handler leaves. [percentage >= quiz.passPercentage] is
    [passPercentage <= percentage] on binary64, false on NaN. *)
Definition gradeEnv (quiz0 : Quiz.t) (answers0 : list Answer.t)
  : Completion (Graded.t * Env) :=
  let env0 :=
    {| quiz := quiz0;
       answers := answers0;
       score := 0;
       totalQuestions := List.length (Quiz.questions quiz0);
       results := [] |} in
  env <- forEach forEachBody (Quiz.questions quiz0) env0 ;;
  let percentage :=
    (number (score env) / number (totalQuestions env) * 100)%float in
  let passed := PrimFloat.leb (Quiz.passPercentage (quiz env)) percentage in
  Normal
    ({| Graded.score := score env;
        Graded.totalQuestions := totalQuestions env;
        Graded.percentage := percentage;
        Graded.passed := passed;
        Graded.results := results env |}, env).

Definition grade (quiz0 : Quiz.t) (answers0 : list Answer.t)
  : Completion Graded.t :=
  out <- gradeEnv quiz0 answers0 ;; Normal (fst out).

(** Lines 121-185: the response, the [catch] of line 182 included. *)
Definition submit (quiz0 : Quiz.t) (answers0 : list Answer.t) : Response :=
  match grade quiz0 answers0 with
  | Normal body => Status200 body
  | Throw _ => Status500 "Server error submitting quiz"
  end.

End Handler.


(** ** Concrete quizzes (the scenarios of the specification) *)

Definition parisQuestion : Question.t :=
  Question.mk "q1" "multiple-choice" "Capital of France?"
    [Opt.mk "Paris" true; Opt.mk "Lyon" false] None.

Definition shortQuestion : Question.t :=
  Question.mk "q2" "short-answer" "Capital of France?" [] (Some "Paris").

Definition essayQuestion : Question.t :=
  Question.mk "q3" "essay" "Describe Paris." [] (Some "Paris").

Definition parisQuiz : Quiz.t := Quiz.mk [parisQuestion] 50%float.

Definition twoQuiz : Quiz.t := Quiz.mk [parisQuestion; shortQuestion] 60%float.

Definition emptyQuiz : Quiz.t := Quiz.mk [] 50%float.

(** The number of entries marked correct. *)
Definition countCorrect (entries : list Entry.t) : nat :=
  List.length (filter Entry.isCorrect entries).

(** * The rest of the routes

    The other handlers of [src/routes/quizRoutes.js] and [src/server.js] that
    decide something. What they call outside the two files is a parameter:
    [jwt.sign] and [jwt.verify] (with [JWT_SECRET] inside),
    [mongoose.Types.ObjectId.isValid], and what the schemas of
    [models/User], [models/Quiz] and [models/Course] decide (whether [save]
    accepts a document, the [_id] it gets, the value stored for a missing
    [passPercentage]). A collection is the list of its documents in insertion
    order; [findOne] returns the first document that matches, and reads
    succeed. *)

(** ** Submission, from the request on (lines 110-186) *)


Section SubmitRoute.

Variable toLowerCase : string -> string.



End SubmitRoute.

(** ** Authentication (src/server.js) *)

(** The payload of a token: lines 113-116. *)
Module Payload.
Record t : Type := mk { id : string; username : string }.
End Payload.

Module User.
Record t : Type := mk { _id : string; username : string; password : string }.
End User.

Inductive Reply : Type :=
| Message (status : nat) (message : string)
| LoggedIn (id username token : string)
| Verified (id username : string).

(** What the middleware does: it answers, or it sets [req.user] and calls
    [next()]. *)
Inductive Middleware : Type :=
| Respond (reply : Reply)
| Next (user : Payload.t).

(** [s.split(' ')]. *)
Fixpoint splitSpace (s : string) : list string :=
  match s with
  | EmptyString => [EmptyString]
  | String c rest =>
      if Ascii.eqb c " "%char then EmptyString :: splitSpace rest
      else
        match splitSpace rest with
        | field :: fields => String c field :: fields
        | [] => [String c EmptyString]
        end
  end.

(** Line 46: [authHeader && authHeader.split(' ')[1]]; a falsy header is the
    value of the conjunction. *)
Definition tokenOf (authHeader : option string) : option string :=
  match authHeader with
  | None => None
  | Some header =>
      if truthy (Some header) then nth_error (splitSpace header) 1
      else Some header
  end.

(** Whether a string holds a space. *)
Fixpoint hasSpace (s : string) : bool :=
  match s with
  | EmptyString => false
  | String c rest => Ascii.eqb c " "%char || hasSpace rest
  end.

Section Accounts.

(** [jwt.verify(token, JWT_SECRET, callback)]: the decoded payload, or none
    when the callback gets an error. *)
Variable verify : string -> option Payload.t.

(** [jwt.sign(payload, JWT_SECRET, { expiresIn: '1h' })] at the time of the
    request. *)
Variable sign : Payload.t -> string.

(** The [_id] a new user document gets, and whether [save] accepts it. *)
Variable newUserId : list User.t -> string.
Variable userSaveOk : list User.t -> User.t -> bool.

(** Lines 43-62. *)
Definition authenticateToken (authHeader : option string) : Middleware :=
  match tokenOf authHeader with
  | None => Respond (Message 401 "No authentication token, authorization denied")
  | Some token =>
      match verify token with
      | None => Respond (Message 403 "Token is not valid")
      | Some user => Next user
      end
  end.

(** [User.findOne({ username })]. *)
Definition findByUsername (users : list User.t) (username : string) : option User.t :=
  find (fun user => User.username user =? username) users.

(** Lines 69-92: the reply and the collection the handler leaves. *)
Definition signup (users : list User.t) (username password : option string)
  : Reply * list User.t :=
  if negb (truthy username) || negb (truthy password) then
    (Message 400 "Please enter all fields", users)
  else
    match username, password with
    | Some name, Some pass =>
        match findByUsername users name with
        | Some existingUser => (Message 400 "Username already exists", users)
        | None =>
            let newUser := User.mk (newUserId users) name pass in
            if userSaveOk users newUser then
              (Message 201 "User registered successfully!", users ++ [newUser])
            else (Message 500 "Server error during signup", users)
        end
    | _, _ => (Message 400 "Please enter all fields", users)
    end.

(** Lines 94-133. *)
Definition login (users : list User.t) (username password : option string) : Reply :=
  if negb (truthy username) || negb (truthy password) then
    Message 400 "Please enter all fields"
  else
    match username, password with
    | Some name, Some pass =>
        match findByUsername users name with
        | None => Message 400 "Invalid credentials"
        | Some user =>
            if negb (pass =? User.password user) then
              Message 400 "Invalid credentials"
            else
              LoggedIn (User._id user) (User.username user)
                (sign (Payload.mk (User._id user) (User.username user)))
        end
    | _, _ => Message 400 "Please enter all fields"
    end.

(** Lines 136-154, behind the middleware. *)
Definition verifyRoute (users : list User.t) (authHeader : option string) : Reply :=
  match authenticateToken authHeader with
  | Respond reply => reply
  | Next user =>
      match find (fun u => User._id u =? Payload.id user) users with
      | None => Message 404 "User not found"
      | Some u => Verified (User._id u) (User.username u)
      end
  end.

End Accounts.

(** ** Creation of a quiz (src/routes/quizRoutes.js, lines 71-107) *)

Module Course.
Record t : Type := mk { _id : string; id : string; quizzes : list string }.
End Course.

(** A stored quiz: what grading reads is [content]. *)
Module QuizDoc.
Record t : Type := mk {
  _id : string;
  title : string;
  description : option string;
  course : string;
  content : Quiz.t
}.
End QuizDoc.

(** [req.body] of the creation route (line 72). *)
Module QuizBody.
Record t : Type := mk {
  title : option string;
  description : option string;
  courseId : option string;
  questions : option (list Question.t);
  passPercentage : option float
}.
End QuizBody.

Record Db : Type := mkDb {
  quizDocs : list QuizDoc.t;
  courseDocs : list Course.t
}.

Inductive CreateReply : Type :=
| CreateMessage (status : nat) (message : string)
| Created (newQuiz : QuizDoc.t).

Section QuizCreation.

(** The [_id] a new quiz gets, the [passPercentage] the schema stores, and
    whether the two calls of [save] (lines 95 and 99) succeed. *)
Variable newQuizId : Db -> string.
Variable storedPassPercentage : option float -> float.
Variable quizSaveOk : Db -> QuizDoc.t -> bool.
Variable courseSaveOk : Db -> Course.t -> bool.

(** [course.save()]: the document with the [_id] of [course] is replaced. *)
Definition saveCourse (course : Course.t) (courses : list Course.t) : list Course.t :=
  map (fun c => if Course._id c =? Course._id course then course else c) courses.

(** Line 75: [!questions || questions.length === 0]. *)
Definition noQuestions (questions : option (list Question.t)) : bool :=
  match questions with
  | None => true
  | Some array => Nat.eqb (List.length array) 0
  end.

(** Lines 71-107: the reply and the database the handler leaves. *)
Definition createQuiz (db : Db) (body : QuizBody.t) : CreateReply * Db :=
  if negb (truthy (QuizBody.title body)) || negb (truthy (QuizBody.courseId body))
     || noQuestions (QuizBody.questions body)
  then
    (CreateMessage 400 "Missing required quiz fields: title, courseId, questions.", db)
  else
    match QuizBody.title body, QuizBody.courseId body, QuizBody.questions body with
    | Some title, Some courseId, Some questions =>
        match find (fun c => Course.id c =? courseId) (courseDocs db) with
        | None =>
            (CreateMessage 404 "Course not found with the provided courseId.", db)
        | Some course =>
            let newQuiz :=
              QuizDoc.mk (newQuizId db) title (QuizBody.description body)
                (Course._id course)
                (Quiz.mk questions
                   (storedPassPercentage (QuizBody.passPercentage body))) in
            if quizSaveOk db newQuiz then
              let db1 := mkDb (quizDocs db ++ [newQuiz]) (courseDocs db) in
              let course1 :=
                Course.mk (Course._id course) (Course.id course)
                  (Course.quizzes course ++ [QuizDoc._id newQuiz]) in
              if courseSaveOk db1 course1 then
                (Created newQuiz,
                 mkDb (quizDocs db1) (saveCourse course1 (courseDocs db1)))
              else (CreateMessage 500 "Server error creating quiz", db1)
            else (CreateMessage 500 "Server error creating quiz", db)
        end
    | _, _, _ =>
        (CreateMessage 400 "Missing required quiz fields: title, courseId, questions.", db)
    end.

End QuizCreation.

(** ** Concrete accounts and courses *)

Definition aliceUsers : list User.t := [User.mk "u1" "alice" "secret"].

(** Stand-ins for [jwt.sign] and [jwt.verify] on the payload of alice. *)
Definition demoSign (payload : Payload.t) : string :=
  (Payload.id payload ++ "." ++ Payload.username payload)%string.

Definition demoVerify (token : string) : option Payload.t :=
  if token =? "u1.alice" then Some (Payload.mk "u1" "alice") else None.

Definition demoUserId (users : list User.t) : string := "u2".

Definition acceptUser (users : list User.t) (user : User.t) : bool := true.

Definition demoDb : Db :=
  mkDb [] [Course.mk "c1" "web-dev-bootcamp" []].

Definition demoBody : QuizBody.t :=
  QuizBody.mk (Some "Capitals") None (Some "web-dev-bootcamp")
    (Some [parisQuestion]) (Some 50%float).

Definition demoQuizId (db : Db) : string := "z1".

Definition demoPass (given : option float) : float :=
  match given with
  | Some p => p
  | None => 70%float
  end.

Definition acceptQuiz (db : Db) (doc : QuizDoc.t) : bool := true.

Definition acceptCourse (db : Db) (course : Course.t) : bool := true.

Definition refuseCourse (db : Db) (course : Course.t) : bool := false.

(** Whether an answer names a question of the quiz. *)
Definition namesQuestion (quiz0 : Quiz.t) (a : Answer.t) : bool :=
  existsb (fun q => Answer.questionId a =? Question.id q) (Quiz.questions quiz0).

(** * Properties *)

(** ** Values *)

Lemma truthy_true_inv (v : option string) :
  truthy v = true -> exists s, v = Some s /\ s <> "".
Proof.
  destruct v as [s|]; simpl; [|discriminate].
  intros H. exists s. split; [reflexivity|].
  intros ->. discriminate H.
Qed.

Lemma truthy_false_inv (v : option string) :
  truthy v = false -> v = None \/ v = Some "".
Proof.
  destruct v as [s|]; simpl; [|now left].
  intros H. right. f_equal.
  apply String.eqb_eq. now destruct (s =? "").
Qed.

Lemma strictEq_true (a b : option string) :
  strictEq a b = true <-> a = b.
Proof.
  destruct a as [x|], b as [y|]; simpl; split; intros H;
    try discriminate; try reflexivity.
  - apply String.eqb_eq in H. now subst.
  - injection H as ->. apply String.eqb_refl.
Qed.

Lemma asciiToLowerCase_empty (s : string) :
  asciiToLowerCase s = "" <-> s = "".
Proof.
  destruct s; simpl; split; intros H; try reflexivity; discriminate.
Qed.

(** [find] returns the first element that satisfies the test. *)
Lemma find_first {A : Type} (f : A -> bool) (pre : list A) (x : A) (post : list A) :
  (forall y, In y pre -> f y = false) -> f x = true ->
  find f (pre ++ x :: post) = Some x.
Proof.
  induction pre as [|y pre IH]; simpl; intros Hpre Hx.
  - now rewrite Hx.
  - rewrite (Hpre y (or_introl eq_refl)). apply IH; auto.
Qed.

Lemma find_none_all {A : Type} (f : A -> bool) (l : list A) :
  (forall y, In y l -> f y = false) -> find f l = None.
Proof.
  induction l as [|y l IH]; simpl; intros H; [reflexivity|].
  rewrite (H y (or_introl eq_refl)). apply IH; auto.
Qed.

(** ** One question *)

Section Properties.

Variable toLowerCase : string -> string.

(** The callback completes normally on every question: the guards of lines
    140, 148 and 150 keep every method call away from [undefined]. *)
Lemma gradeQuestion_normal (answers : list Answer.t) (question : Question.t) :
  exists entry,
    gradeQuestion toLowerCase answers question = Normal entry /\
    Entry.questionId entry = Question.id question /\
    Entry.questionText entry = Question.questionText question /\
    Entry.userAnswer entry = findUserAnswer answers question.
Proof.
  unfold gradeQuestion.
  destruct ((Question.type question =? "multiple-choice")
            || (Question.type question =? "true-false")).
  - destruct (find _ (Question.options question)); simpl; eauto.
  - destruct (Question.type question =? "short-answer"); [|simpl; eauto].
    destruct (Question.correctAnswer question) as [ca|]; [|simpl; eauto].
    destruct (negb (ca =? "")); [|simpl; eauto].
    destruct (truthy (findUserAnswer answers question)) eqn:Ht; [|simpl; eauto].
    apply truthy_true_inv in Ht. destruct Ht as [s [-> _]]. simpl. eauto.
Qed.

(** Lines 138-145 in closed form. *)
Lemma gradeQuestion_multiple_choice (answers : list Answer.t) (question : Question.t) :
  Question.type question = "multiple-choice" \/ Question.type question = "true-false" ->
  gradeQuestion toLowerCase answers question =
    Normal
      (match find Opt.isCorrect (Question.options question) with
       | Some opt =>
           Entry.mk (Question.id question) (Question.questionText question)
             (findUserAnswer answers question) (Opt.text opt)
             (strictEq (findUserAnswer answers question) (Some (Opt.text opt)))
       | None =>
           Entry.mk (Question.id question) (Question.questionText question)
             (findUserAnswer answers question) "" false
       end).
Proof.
  intros Htype. unfold gradeQuestion.
  replace ((Question.type question =? "multiple-choice")
           || (Question.type question =? "true-false")) with true
    by (destruct Htype as [-> | ->]; reflexivity).
  change (fun opt : Opt.t => Opt.isCorrect opt) with Opt.isCorrect.
  destruct (find Opt.isCorrect (Question.options question)); reflexivity.
Qed.

(** C1. For a multiple-choice or true-false question the first option marked
    correct is the correct answer: its text is reported, and the entry is
    correct exactly when the submitted answer is that text, character for
    character; when no option is marked correct the entry is incorrect and
    the reported text is empty. *)
Theorem multiple_choice_first_correct_option
    (answers : list Answer.t) (question : Question.t) :
  Question.type question = "multiple-choice" \/ Question.type question = "true-false" ->
  exists entry,
    gradeQuestion toLowerCase answers question = Normal entry /\
    Entry.userAnswer entry = findUserAnswer answers question /\
    (forall pre opt post,
        Question.options question = pre ++ opt :: post ->
        (forall o, In o pre -> Opt.isCorrect o = false) ->
        Opt.isCorrect opt = true ->
        Entry.correctAnswer entry = Opt.text opt /\
        (Entry.isCorrect entry = true <->
         findUserAnswer answers question = Some (Opt.text opt))) /\
    ((forall o, In o (Question.options question) -> Opt.isCorrect o = false) ->
     Entry.isCorrect entry = false /\ Entry.correctAnswer entry = "").
Proof.
  intros Htype. eexists. split; [apply gradeQuestion_multiple_choice, Htype|].
  split; [destruct (find _ _); reflexivity|]. split.
  - intros pre opt post Hopts Hpre Hopt.
    rewrite Hopts, (find_first _ _ _ _ Hpre Hopt). simpl.
    split; [reflexivity|apply strictEq_true].
  - intros Hnone. rewrite (find_none_all _ _ Hnone). simpl. auto.
Qed.

(** Lines 146-154 in closed form. *)
Lemma gradeQuestion_short_answer (answers : list Answer.t) (question : Question.t) :
  Question.type question = "short-answer" ->
  gradeQuestion toLowerCase answers question =
    Normal
      (match Question.correctAnswer question with
       | Some ca =>
           if ca =? "" then
             Entry.mk (Question.id question) (Question.questionText question)
               (findUserAnswer answers question) "" false
           else
             Entry.mk (Question.id question) (Question.questionText question)
               (findUserAnswer answers question) ca
               (match findUserAnswer answers question with
                | Some s => negb (s =? "") && (toLowerCase s =? toLowerCase ca)
                | None => false
                end)
       | None =>
           Entry.mk (Question.id question) (Question.questionText question)
             (findUserAnswer answers question) "" false
       end).
Proof.
  intros Htype. unfold gradeQuestion. rewrite Htype. simpl.
  destruct (Question.correctAnswer question) as [ca|]; [|reflexivity].
  destruct (ca =? ""); [reflexivity|]. simpl.
  destruct (findUserAnswer answers question) as [s|]; [|reflexivity].
  simpl. destruct (s =? ""); reflexivity.
Qed.

(** Lines 135-136 are all that applies to a question of any other type. *)
Lemma gradeQuestion_other_type (answers : list Answer.t) (question : Question.t) :
  Question.type question <> "multiple-choice" ->
  Question.type question <> "true-false" ->
  Question.type question <> "short-answer" ->
  gradeQuestion toLowerCase answers question =
    Normal
      (Entry.mk (Question.id question) (Question.questionText question)
         (findUserAnswer answers question) "" false).
Proof.
  intros Hmc Htf Hsa. unfold gradeQuestion.
  apply String.eqb_neq in Hmc, Htf, Hsa.
  rewrite Hmc, Htf, Hsa. reflexivity.
Qed.

(** The entry depends on [answers] through the answer found only. *)
Lemma gradeQuestion_same_found (answers answers' : list Answer.t) (question : Question.t) :
  findUserAnswer answers question = findUserAnswer answers' question ->
  gradeQuestion toLowerCase answers question = gradeQuestion toLowerCase answers' question.
Proof.
  intros H. unfold gradeQuestion. cbv zeta. now rewrite H.
Qed.

Lemma gradeQuestion_undefined (answers : list Answer.t) (question : Question.t) :
  findUserAnswer answers question = None ->
  exists entry,
    gradeQuestion toLowerCase answers question = Normal entry /\
    Entry.userAnswer entry = None /\
    Entry.isCorrect entry = false.
Proof.
  intros Hnone.
  destruct (Question.type question =? "multiple-choice") eqn:Hmc;
    [apply String.eqb_eq in Hmc|apply String.eqb_neq in Hmc].
  { rewrite gradeQuestion_multiple_choice by now left.
    rewrite Hnone. destruct (find _ _); eexists; simpl; auto. }
  destruct (Question.type question =? "true-false") eqn:Htf;
    [apply String.eqb_eq in Htf|apply String.eqb_neq in Htf].
  { rewrite gradeQuestion_multiple_choice by now right.
    rewrite Hnone. destruct (find _ _); eexists; simpl; auto. }
  destruct (Question.type question =? "short-answer") eqn:Hsa;
    [apply String.eqb_eq in Hsa|apply String.eqb_neq in Hsa].
  { rewrite gradeQuestion_short_answer by assumption.
    rewrite Hnone.
    destruct (Question.correctAnswer question) as [ca|];
      [destruct (ca =? "")|]; eexists; simpl; auto. }
  rewrite gradeQuestion_other_type by assumption.
  rewrite Hnone. eexists; simpl; auto.
Qed.

(** C2. For a short-answer question whose [correctAnswer] is set, the entry
    is correct exactly when an answer was submitted and its lowercased form
    is the lowercased [correctAnswer], the strings compared whole (nothing is
    trimmed); when [correctAnswer] is not set the entry is incorrect. Stated
    with the guard of line 150 written out (the answer is a non-empty
    string), and without it for every lowercasing that maps the empty string,
    and no other, to the empty string. *)
Theorem short_answer_lowercase_match
    (answers : list Answer.t) (question : Question.t) :
  Question.type question = "short-answer" ->
  exists entry,
    gradeQuestion toLowerCase answers question = Normal entry /\
    Entry.userAnswer entry = findUserAnswer answers question /\
    (forall ca,
        Question.correctAnswer question = Some ca -> ca <> "" ->
        Entry.correctAnswer entry = ca /\
        (Entry.isCorrect entry = true <->
         exists s, findUserAnswer answers question = Some s /\ s <> "" /\
                   toLowerCase s = toLowerCase ca) /\
        ((forall s, toLowerCase s = "" <-> s = "") ->
         (Entry.isCorrect entry = true <->
          exists s, findUserAnswer answers question = Some s /\
                    toLowerCase s = toLowerCase ca))) /\
    (truthy (Question.correctAnswer question) = false ->
     Entry.isCorrect entry = false).
Proof.
  intros Htype. eexists.
  split; [apply gradeQuestion_short_answer, Htype|].
  split; [destruct (Question.correctAnswer question) as [ca|];
          [destruct (ca =? "")|]; reflexivity|].
  split.
  - intros ca Hca Hne. rewrite Hca.
    apply String.eqb_neq in Hne. rewrite Hne. simpl.
    apply String.eqb_neq in Hne.
    assert (Hguard :
      match findUserAnswer answers question with
      | Some s => negb (s =? "") && (toLowerCase s =? toLowerCase ca)
      | None => false
      end = true <->
      exists s, findUserAnswer answers question = Some s /\ s <> "" /\
                toLowerCase s = toLowerCase ca).
    { destruct (findUserAnswer answers question) as [u|].
      - rewrite andb_true_iff, negb_true_iff, String.eqb_neq, String.eqb_eq.
        split.
        + intros [Hu Hl]. exists u. auto.
        + intros [s [Hs [Hu Hl]]]. injection Hs as <-. auto.
      - split; [discriminate|]. intros [s [Hs _]]. discriminate. }
    split; [reflexivity|]. split; [exact Hguard|].
    intros Hlower. rewrite Hguard. split.
    + intros [s [Hs [_ Hl]]]. exists s. auto.
    + intros [s [Hs Hl]]. exists s. repeat split; auto.
      intros ->. apply Hne, Hlower. rewrite <- Hl. now apply Hlower.
  - intros Hunset. apply truthy_false_inv in Hunset.
    destruct Hunset as [-> | ->]; reflexivity.
Qed.

(** C10. For a short-answer question the empty string counts as no string:
    with [correctAnswer] the empty string the entry is incorrect (and the
    reported text empty) whatever was submitted, and with the empty string
    submitted the entry is incorrect whatever [correctAnswer] is. *)
Theorem short_answer_empty_string
    (answers : list Answer.t) (question : Question.t) :
  Question.type question = "short-answer" ->
  exists entry,
    gradeQuestion toLowerCase answers question = Normal entry /\
    (Question.correctAnswer question = Some "" ->
     Entry.isCorrect entry = false /\ Entry.correctAnswer entry = "") /\
    (findUserAnswer answers question = Some "" ->
     Entry.isCorrect entry = false).
Proof.
  intros Htype. eexists.
  split; [apply gradeQuestion_short_answer, Htype|]. split.
  - intros ->. simpl. auto.
  - intros ->. destruct (Question.correctAnswer question) as [ca|];
      [destruct (ca =? "")|]; reflexivity.
Qed.

(** C7. A question whose type is none of the three known ones is graded
    incorrect with an empty correct-answer text, and the callback completes
    normally, whatever was submitted. *)
Theorem unknown_type_incorrect
    (answers : list Answer.t) (question : Question.t) :
  Question.type question <> "multiple-choice" ->
  Question.type question <> "true-false" ->
  Question.type question <> "short-answer" ->
  exists entry,
    gradeQuestion toLowerCase answers question = Normal entry /\
    Entry.isCorrect entry = false /\
    Entry.correctAnswer entry = "".
Proof.
  intros Hmc Htf Hsa. eexists.
  split; [apply gradeQuestion_other_type; assumption|].
  simpl. auto.
Qed.

(** ** The answer found for a question *)

Lemma findUserAnswer_no_match (answers : list Answer.t) (question : Question.t) :
  (forall a, In a answers -> Answer.questionId a <> Question.id question) ->
  findUserAnswer answers question = None.
Proof.
  intros Hno. unfold findUserAnswer.
  rewrite find_none_all; [reflexivity|].
  intros a Ha. apply String.eqb_neq, Hno, Ha.
Qed.

Lemma findUserAnswer_first_match
    (pre : list Answer.t) (a : Answer.t) (post : list Answer.t) (question : Question.t) :
  (forall b, In b pre -> Answer.questionId b <> Question.id question) ->
  Answer.questionId a = Question.id question ->
  findUserAnswer (pre ++ a :: post) question = Answer.userAnswer a.
Proof.
  intros Hpre Ha. unfold findUserAnswer.
  rewrite find_first; [reflexivity| |].
  - intros b Hb. apply String.eqb_neq, Hpre, Hb.
  - apply String.eqb_eq, Ha.
Qed.

(** C6. A question that no submitted answer names is graded incorrect, with
    no answer recorded, and the callback completes normally; when several
    submitted answers name the question, the first of them supplies the
    answer: the entry is the one the submission of that answer alone gets. *)
Theorem unanswered_incorrect_first_answer_wins
    (answers : list Answer.t) (question : Question.t) :
  ((forall a, In a answers -> Answer.questionId a <> Question.id question) ->
   exists entry,
     gradeQuestion toLowerCase answers question = Normal entry /\
     Entry.userAnswer entry = None /\
     Entry.isCorrect entry = false) /\
  (forall pre a post,
      answers = pre ++ a :: post ->
      (forall b, In b pre -> Answer.questionId b <> Question.id question) ->
      Answer.questionId a = Question.id question ->
      exists entry,
        gradeQuestion toLowerCase answers question = Normal entry /\
        Entry.userAnswer entry = Answer.userAnswer a /\
        gradeQuestion toLowerCase [a] question = Normal entry).
Proof.
  split.
  - intros Hno. apply gradeQuestion_undefined, findUserAnswer_no_match, Hno.
  - intros pre a post -> Hpre Ha.
    destruct (gradeQuestion_normal (pre ++ a :: post) question)
      as [entry [Hentry [_ [_ Hua]]]].
    exists entry. split; [exact Hentry|]. split.
    + rewrite Hua. now apply findUserAnswer_first_match.
    + rewrite <- Hentry. apply gradeQuestion_same_found.
      rewrite findUserAnswer_first_match by assumption.
      apply (findUserAnswer_first_match [] a []); [intros b []|exact Ha].
Qed.

(** ** The loop *)

Lemma countCorrect_cons (entry : Entry.t) (entries : list Entry.t) :
  countCorrect (entry :: entries) =
  if Entry.isCorrect entry then S (countCorrect entries) else countCorrect entries.
Proof.
  unfold countCorrect. simpl. now destruct (Entry.isCorrect entry).
Qed.

Lemma countCorrect_le_length (entries : list Entry.t) :
  countCorrect entries <= List.length entries.
Proof.
  induction entries as [|entry entries IH]; [apply le_n|].
  rewrite countCorrect_cons. simpl. destruct (Entry.isCorrect entry); lia.
Qed.

(** One call of the callback writes [score] and [results] only. *)
Lemma forEachBody_frame (question : Question.t) (env env' : Env) :
  forEachBody toLowerCase question env = Normal env' ->
  quiz env' = quiz env /\ answers env' = answers env /\
  totalQuestions env' = totalQuestions env.
Proof.
  unfold forEachBody.
  destruct (gradeQuestion toLowerCase (answers env) question); simpl;
    [|discriminate].
  intros H. injection H as <-. auto.
Qed.

(** The loop of lines 132-166 completes normally; it appends one entry per
    question, in order, and adds to [score] the number of correct ones. *)
Lemma forEach_forEachBody (questions : list Question.t) :
  forall env, exists entries,
    Forall2 (fun q e => gradeQuestion toLowerCase (answers env) q = Normal e)
      questions entries /\
    forEach (forEachBody toLowerCase) questions env =
      Normal (mkEnv (quiz env) (answers env) (score env + countCorrect entries)
                (totalQuestions env) (results env ++ entries)).
Proof.
  induction questions as [|question questions IH]; intros env.
  - exists []. split; [constructor|]. simpl.
    rewrite app_nil_r. unfold countCorrect. simpl. rewrite Nat.add_0_r.
    now destruct env.
  - destruct (gradeQuestion_normal (answers env) question) as [entry [Hentry _]].
    simpl. unfold forEachBody at 1. rewrite Hentry. simpl.
    match goal with |- context [forEach _ _ ?e] => destruct (IH e) as [entries [Hall Hrun]] end.
    simpl in Hall, Hrun. exists (entry :: entries). split.
    + constructor; assumption.
    + rewrite Hrun, countCorrect_cons, <- app_assoc. simpl.
      do 2 f_equal. destruct (Entry.isCorrect entry); lia.
Qed.

(** Lines 128-180 in closed form. *)
Lemma gradeEnv_normal (quiz0 : Quiz.t) (answers0 : list Answer.t) :
  exists entries,
    Forall2 (fun q e => gradeQuestion toLowerCase answers0 q = Normal e)
      (Quiz.questions quiz0) entries /\
    gradeEnv toLowerCase quiz0 answers0 =
      Normal
        (Graded.mk (countCorrect entries) (List.length (Quiz.questions quiz0))
           (number (countCorrect entries)
            / number (List.length (Quiz.questions quiz0)) * 100)%float
           (PrimFloat.leb (Quiz.passPercentage quiz0)
              (number (countCorrect entries)
               / number (List.length (Quiz.questions quiz0)) * 100)%float)
           entries,
         mkEnv quiz0 answers0 (countCorrect entries)
           (List.length (Quiz.questions quiz0)) entries).
Proof.
  unfold gradeEnv. cbv zeta.
  match goal with |- context [forEach _ _ ?e] =>
    destruct (forEach_forEachBody (Quiz.questions quiz0) e) as [entries [Hall Hrun]] end.
  simpl in Hall, Hrun. exists entries. split; [exact Hall|].
  rewrite Hrun. reflexivity.
Qed.

Lemma grade_normal (quiz0 : Quiz.t) (answers0 : list Answer.t) :
  exists entries,
    Forall2 (fun q e => gradeQuestion toLowerCase answers0 q = Normal e)
      (Quiz.questions quiz0) entries /\
    grade toLowerCase quiz0 answers0 =
      Normal
        (Graded.mk (countCorrect entries) (List.length (Quiz.questions quiz0))
           (number (countCorrect entries)
            / number (List.length (Quiz.questions quiz0)) * 100)%float
           (PrimFloat.leb (Quiz.passPercentage quiz0)
              (number (countCorrect entries)
               / number (List.length (Quiz.questions quiz0)) * 100)%float)
           entries).
Proof.
  destruct (gradeEnv_normal quiz0 answers0) as [entries [Hall Hrun]].
  exists entries. split; [exact Hall|].
  unfold grade. rewrite Hrun. reflexivity.
Qed.

Lemma Forall2_graded_fields (answers0 : list Answer.t)
    (questions : list Question.t) (entries : list Entry.t) :
  Forall2 (fun q e => gradeQuestion toLowerCase answers0 q = Normal e)
    questions entries ->
  List.length entries = List.length questions /\
  map Entry.questionId entries = map Question.id questions /\
  map Entry.questionText entries = map Question.questionText questions.
Proof.
  induction 1 as [|q e qs es He _ [IHlen [IHid IHtext]]]; [auto|].
  destruct (gradeQuestion_normal answers0 q) as [e' [He' [Hid [Htext _]]]].
  rewrite He in He'. injection He' as <-.
  simpl. rewrite IHlen, IHid, IHtext, Hid, Htext. auto.
Qed.

(** ** The graded result *)

(** [p >= passPercentage] is false when [p] is NaN, whatever the threshold. *)
Lemma leb_nan (p : float) : PrimFloat.leb p nan = false.
Proof.
  rewrite FloatAxioms.leb_spec.
  change (Prim2SF nan) with S754_nan.
  destruct (Prim2SF p); reflexivity.
Qed.

(** C3. When the quiz has at least one question, grading completes with
    [0 <= score <= totalQuestions], with [percentage] the binary64 value of
    [score / totalQuestions * 100] and with [passed] the outcome of
    [percentage >= quiz.passPercentage]. *)
Theorem score_percentage_passed (quiz0 : Quiz.t) (answers0 : list Answer.t) :
  0 < List.length (Quiz.questions quiz0) ->
  exists r,
    grade toLowerCase quiz0 answers0 = Normal r /\
    Graded.totalQuestions r = List.length (Quiz.questions quiz0) /\
    0 <= Graded.score r <= Graded.totalQuestions r /\
    Graded.percentage r =
      (number (Graded.score r) / number (Graded.totalQuestions r) * 100)%float /\
    Graded.passed r =
      PrimFloat.leb (Quiz.passPercentage quiz0) (Graded.percentage r).
Proof.
  intros _.
  destruct (grade_normal quiz0 answers0) as [entries [Hall Hrun]].
  eexists. split; [exact Hrun|]. simpl.
  repeat split; [lia|].
  apply Forall2_graded_fields in Hall. destruct Hall as [<- _].
  apply countCorrect_le_length.
Qed.

(** C4, as the handler behaves. With no question, grading completes with
    [score = 0], [totalQuestions = 0], [percentage] NaN (the value of [0 / 0])
    and [passed = false]; nothing is thrown. *)
Theorem zero_questions_percentage_nan (quiz0 : Quiz.t) (answers0 : list Answer.t) :
  Quiz.questions quiz0 = [] ->
  grade toLowerCase quiz0 answers0 = Normal (Graded.mk 0 0 nan false []).
Proof.
  intros Hempty. unfold grade, gradeEnv. rewrite Hempty. simpl.
  change (number 0 / number 0 * 100)%float with nan.
  now rewrite leb_nan.
Qed.

(** C5. Grading completes with one entry per question, the i-th entry being
    the grading of the i-th question of the quiz: the identifiers and texts
    of the entries are those of [quiz.questions], in that order, and any
    other submission (a reordering of this one among them) gets the same
    sequence of identifiers. *)
Theorem results_follow_questions (quiz0 : Quiz.t) (answers0 : list Answer.t) :
  exists r,
    grade toLowerCase quiz0 answers0 = Normal r /\
    List.length (Graded.results r) = Graded.totalQuestions r /\
    Graded.totalQuestions r = List.length (Quiz.questions quiz0) /\
    Forall2 (fun q e => gradeQuestion toLowerCase answers0 q = Normal e)
      (Quiz.questions quiz0) (Graded.results r) /\
    map Entry.questionId (Graded.results r) = map Question.id (Quiz.questions quiz0) /\
    map Entry.questionText (Graded.results r) =
      map Question.questionText (Quiz.questions quiz0) /\
    (forall answers1, exists r1,
        grade toLowerCase quiz0 answers1 = Normal r1 /\
        List.length (Graded.results r1) = List.length (Graded.results r) /\
        map Entry.questionId (Graded.results r1) =
          map Entry.questionId (Graded.results r)).
Proof.
  destruct (grade_normal quiz0 answers0) as [entries [Hall Hrun]].
  destruct (Forall2_graded_fields _ _ _ Hall) as [Hlen [Hid Htext]].
  eexists. split; [exact Hrun|]. simpl.
  repeat split; try assumption.
  intros answers1.
  destruct (grade_normal quiz0 answers1) as [entries1 [Hall1 Hrun1]].
  destruct (Forall2_graded_fields _ _ _ Hall1) as [Hlen1 [Hid1 _]].
  eexists. split; [exact Hrun1|]. simpl. split; congruence.
Qed.

(** C9. The score returned is the number of entries of [results] whose
    [isCorrect] is true. *)
Theorem score_counts_correct_entries (quiz0 : Quiz.t) (answers0 : list Answer.t) :
  exists r,
    grade toLowerCase quiz0 answers0 = Normal r /\
    Graded.score r = List.length (filter Entry.isCorrect (Graded.results r)).
Proof.
  destruct (grade_normal quiz0 answers0) as [entries [_ Hrun]].
  eexists. split; [exact Hrun|]. reflexivity.
Qed.

(** C8. An invocation completes normally and leaves the quiz and the
    submitted answers as it found them; the result is a function of the two:
    invoking the handler again on what the first invocation left returns the
    same result and leaves the same environment. *)
Theorem grade_reads_only (quiz0 : Quiz.t) (answers0 : list Answer.t) :
  exists r env,
    gradeEnv toLowerCase quiz0 answers0 = Normal (r, env) /\
    quiz env = quiz0 /\
    answers env = answers0 /\
    gradeEnv toLowerCase (quiz env) (answers env) = Normal (r, env) /\
    grade toLowerCase quiz0 answers0 = Normal r /\
    submit toLowerCase quiz0 answers0 = Status200 r.
Proof.
  destruct (gradeEnv_normal quiz0 answers0) as [entries [_ Hrun]].
  do 2 eexists. split; [exact Hrun|]. simpl.
  repeat split; [exact Hrun| |].
  - unfold grade. rewrite Hrun. reflexivity.
  - unfold submit, grade. rewrite Hrun. reflexivity.
Qed.

End Properties.

(** ** The scenarios, run with the ASCII lowercasing *)

(** Scenario A: the exact option text. *)
Example scenario_exact_text :
  grade asciiToLowerCase parisQuiz [Answer.mk "q1" (Some "Paris")] =
  Normal
    (Graded.mk 1 1 100%float true
       [Entry.mk "q1" "Capital of France?" (Some "Paris") "Paris" true]).
Proof. vm_compute. reflexivity. Qed.

(** Scenario B: the option text in another case. *)
Example scenario_other_case :
  grade asciiToLowerCase parisQuiz [Answer.mk "q1" (Some "paris")] =
  Normal
    (Graded.mk 0 1 0%float false
       [Entry.mk "q1" "Capital of France?" (Some "paris") "Paris" false]).
Proof. vm_compute. reflexivity. Qed.

(** Scenario C: a short answer in another case; and with a leading blank. *)
Example scenario_short_answer :
  gradeQuestion asciiToLowerCase [Answer.mk "q2" (Some "PARIS")] shortQuestion =
    Normal (Entry.mk "q2" "Capital of France?" (Some "PARIS") "Paris" true) /\
  gradeQuestion asciiToLowerCase [Answer.mk "q2" (Some " paris")] shortQuestion =
    Normal (Entry.mk "q2" "Capital of France?" (Some " paris") "Paris" false).
Proof. split; vm_compute; reflexivity. Qed.

(** Scenario D: two questions, the first one answered. *)
Example scenario_half :
  grade asciiToLowerCase twoQuiz [Answer.mk "q1" (Some "Paris")] =
  Normal
    (Graded.mk 1 2 50%float false
       [Entry.mk "q1" "Capital of France?" (Some "Paris") "Paris" true;
        Entry.mk "q2" "Capital of France?" None "Paris" false]).
Proof. vm_compute. reflexivity. Qed.

(** The response of the handler on scenario A. *)
Example scenario_response :
  submit asciiToLowerCase parisQuiz [Answer.mk "q1" (Some "Paris")] =
  Status200
    (Graded.mk 1 1 100%float true
       [Entry.mk "q1" "Capital of France?" (Some "Paris") "Paris" true]).
Proof. vm_compute. reflexivity. Qed.

(** ** The theorems at concrete inputs *)

Lemma multiple_choice_first_correct_option_witness :
  (Question.type parisQuestion = "multiple-choice" \/
   Question.type parisQuestion = "true-false") /\
  exists entry,
    gradeQuestion asciiToLowerCase [Answer.mk "q1" (Some "Paris")] parisQuestion
      = Normal entry /\
    Entry.correctAnswer entry = "Paris" /\
    Entry.isCorrect entry = true.
Proof.
  split; [left; reflexivity|].
  destruct (multiple_choice_first_correct_option asciiToLowerCase
              [Answer.mk "q1" (Some "Paris")] parisQuestion (or_introl eq_refl))
    as [entry [Hrun [_ [Hfirst _]]]].
  destruct (Hfirst [] (Opt.mk "Paris" true) [Opt.mk "Lyon" false] eq_refl
              (fun o H => match H with end) eq_refl) as [Htext Hiff].
  exists entry. split; [exact Hrun|]. split; [exact Htext|].
  apply Hiff. reflexivity.
Defined.

Lemma short_answer_lowercase_match_witness :
  Question.type shortQuestion = "short-answer" /\
  exists entry,
    gradeQuestion asciiToLowerCase [Answer.mk "q2" (Some "PARIS")] shortQuestion
      = Normal entry /\
    Entry.correctAnswer entry = "Paris" /\
    Entry.isCorrect entry = true.
Proof.
  split; [reflexivity|].
  destruct (short_answer_lowercase_match asciiToLowerCase
              [Answer.mk "q2" (Some "PARIS")] shortQuestion eq_refl)
    as [entry [Hrun [_ [Hset _]]]].
  destruct (Hset "Paris" eq_refl ltac:(discriminate)) as [Htext [_ Hiff]].
  exists entry. split; [exact Hrun|]. split; [exact Htext|].
  apply (Hiff asciiToLowerCase_empty). exists "PARIS". split; reflexivity.
Defined.

Lemma short_answer_empty_string_witness :
  Question.type (Question.mk "q2" "short-answer" "Capital?" [] (Some "")) = "short-answer" /\
  exists entry,
    gradeQuestion asciiToLowerCase [Answer.mk "q2" (Some "")]
      (Question.mk "q2" "short-answer" "Capital?" [] (Some "")) = Normal entry /\
    Entry.isCorrect entry = false.
Proof.
  split; [reflexivity|].
  destruct (short_answer_empty_string asciiToLowerCase
              [Answer.mk "q2" (Some "")]
              (Question.mk "q2" "short-answer" "Capital?" [] (Some "")) eq_refl)
    as [entry [Hrun [Hca _]]].
  exists entry. split; [exact Hrun|]. apply (Hca eq_refl).
Defined.

Lemma unknown_type_incorrect_witness :
  (Question.type essayQuestion <> "multiple-choice" /\
   Question.type essayQuestion <> "true-false" /\
   Question.type essayQuestion <> "short-answer") /\
  exists entry,
    gradeQuestion asciiToLowerCase [Answer.mk "q3" (Some "Paris")] essayQuestion
      = Normal entry /\
    Entry.isCorrect entry = false /\
    Entry.correctAnswer entry = "".
Proof.
  split; [repeat split; discriminate|].
  apply (unknown_type_incorrect asciiToLowerCase
           [Answer.mk "q3" (Some "Paris")] essayQuestion); discriminate.
Defined.

Lemma unanswered_incorrect_first_answer_wins_witness :
  (exists entry,
      gradeQuestion asciiToLowerCase [Answer.mk "q2" (Some "Paris")] parisQuestion
        = Normal entry /\
      Entry.userAnswer entry = None /\
      Entry.isCorrect entry = false) /\
  (exists entry,
      gradeQuestion asciiToLowerCase
        [Answer.mk "q2" (Some "Paris"); Answer.mk "q1" (Some "Lyon");
         Answer.mk "q1" (Some "Paris")] parisQuestion = Normal entry /\
      Entry.userAnswer entry = Some "Lyon").
Proof.
  split.
  - apply (proj1 (unanswered_incorrect_first_answer_wins asciiToLowerCase
                    [Answer.mk "q2" (Some "Paris")] parisQuestion)).
    intros a [<- | []]. discriminate.
  - destruct (proj2 (unanswered_incorrect_first_answer_wins asciiToLowerCase
                       [Answer.mk "q2" (Some "Paris"); Answer.mk "q1" (Some "Lyon");
                        Answer.mk "q1" (Some "Paris")] parisQuestion)
                [Answer.mk "q2" (Some "Paris")] (Answer.mk "q1" (Some "Lyon"))
                [Answer.mk "q1" (Some "Paris")] eq_refl)
      as [entry [Hrun [Hua _]]].
    + intros b [<- | []]. discriminate.
    + reflexivity.
    + exists entry. split; [exact Hrun|exact Hua].
Defined.

Lemma score_percentage_passed_witness :
  0 < List.length (Quiz.questions twoQuiz) /\
  exists r,
    grade asciiToLowerCase twoQuiz [Answer.mk "q1" (Some "Paris")] = Normal r /\
    Graded.score r <= Graded.totalQuestions r.
Proof.
  split; [simpl; lia|].
  destruct (score_percentage_passed asciiToLowerCase twoQuiz
              [Answer.mk "q1" (Some "Paris")]) as [r [Hrun [_ [[_ Hle] _]]]].
  - simpl. lia.
  - exists r. split; [exact Hrun|exact Hle].
Defined.

Lemma zero_questions_percentage_nan_witness :
  Quiz.questions emptyQuiz = [] /\
  grade asciiToLowerCase emptyQuiz [Answer.mk "q1" (Some "Paris")] =
    Normal (Graded.mk 0 0 nan false []).
Proof.
  split; [reflexivity|].
  apply (zero_questions_percentage_nan asciiToLowerCase emptyQuiz). reflexivity.
Defined.

(** C4 as stated does not hold: on a quiz with no question the handler
    does not return [percentage = 0]; the division of line 168 is [0 / 0]. *)
Lemma zero_questions_percentage_not_zero :
  ~ (exists r,
        grade asciiToLowerCase emptyQuiz [] = Normal r /\
        Graded.score r = 0 /\
        Graded.percentage r = 0%float /\
        Graded.passed r = false).
Proof.
  intros [r [Hrun [_ [Hpct _]]]].
  vm_compute in Hrun. injection Hrun as <-. simpl in Hpct.
  apply (f_equal PrimFloat.is_nan) in Hpct. vm_compute in Hpct. discriminate.
Qed.

(** The percentage is the binary64 value of line 168, roundings included:
    29 correct answers out of 100 give a value just below 29. *)
Example percentage_is_binary64 :
  (number 29 / number 100 * 100)%float = 28.999999999999996%float /\
  PrimFloat.leb 29%float (number 29 / number 100 * 100)%float = false.
Proof. split; vm_compute; reflexivity. Qed.

(** * Further properties of the routes *)

(** ** Lists *)

Lemma find_filter_keep {A : Type} (f keep : A -> bool) (l : list A) :
  (forall x, In x l -> f x = true -> keep x = true) ->
  find f (filter keep l) = find f l.
Proof.
  induction l as [|x l IH]; intros Hkeep; [reflexivity|]. simpl.
  destruct (keep x) eqn:Hk; simpl.
  - destruct (f x); [reflexivity|]. apply IH. intros y Hy. apply Hkeep. now right.
  - destruct (f x) eqn:Hf.
    + rewrite (Hkeep x (or_introl eq_refl) Hf) in Hk. discriminate.
    + apply IH. intros y Hy. apply Hkeep. now right.
Qed.

(** A test that at most one element passes finds the same element in every
    arrangement of the list. *)
Lemma find_unique_perm {A : Type} (f : A -> bool) (l l' : list A) :
  Permutation l l' ->
  (forall x y, In x l -> In y l -> f x = true -> f y = true -> x = y) ->
  find f l = find f l'.
Proof.
  induction 1 as [|x l l' Hperm IH|x y l|l l' l'' H1 IH1 H2 IH2]; intros Huniq.
  - reflexivity.
  - simpl. destruct (f x); [reflexivity|].
    apply IH. intros a b Ha Hb. apply Huniq; now right.
  - simpl. destruct (f x) eqn:Hx, (f y) eqn:Hy; try reflexivity.
    f_equal. apply Huniq; simpl; auto.
  - rewrite IH1 by assumption. apply IH2.
    intros a b Ha Hb.
    apply Huniq; apply (Permutation_in _ (Permutation_sym H1)); assumption.
Qed.

Lemma NoDup_map_eq {A B : Type} (key : A -> B) (l : list A) (x y : A) :
  NoDup (map key l) -> In x l -> In y l -> key x = key y -> x = y.
Proof.
  induction l as [|z l IH]; simpl; intros Hnd Hx Hy Hkey; [contradiction|].
  inversion Hnd as [|k ks Hnotin Hnd']; subst.
  destruct Hx as [-> | Hx], Hy as [-> | Hy]; auto.
  - exfalso. apply Hnotin. rewrite Hkey. now apply in_map.
  - exfalso. apply Hnotin. rewrite <- Hkey. now apply in_map.
Qed.

Lemma filter_length_all {A : Type} (f : A -> bool) (l : list A) :
  List.length (filter f l) = List.length l <-> Forall (fun x => f x = true) l.
Proof.
  induction l as [|x l IH]; simpl; [split; auto|].
  pose proof (filter_length_le f l) as Hle.
  destruct (f x) eqn:Hf; simpl; split; intros H.
  - constructor; [exact Hf|]. apply IH. lia.
  - inversion H; subst. f_equal. now apply IH.
  - lia.
  - inversion H; subst. congruence.
Qed.

Lemma filter_length_none {A : Type} (f : A -> bool) (l : list A) :
  List.length (filter f l) = 0 <-> Forall (fun x => f x = false) l.
Proof.
  induction l as [|x l IH]; simpl; [split; auto|].
  destruct (f x) eqn:Hf; simpl; split; intros H.
  - discriminate.
  - inversion H; subst. congruence.
  - constructor; [exact Hf|]. now apply IH.
  - inversion H; subst. now apply IH.
Qed.

(** ** Grading, continued *)

Section GradingProperties.

Variable toLowerCase : string -> string.

(** Splits on the branch of lines 138-154 that [question] takes. *)
Ltac by_type question :=
  destruct (Question.type question =? "multiple-choice") eqn:Hmc;
    [apply String.eqb_eq in Hmc;
     rewrite !(gradeQuestion_multiple_choice toLowerCase _ question (or_introl Hmc))
    |apply String.eqb_neq in Hmc;
     destruct (Question.type question =? "true-false") eqn:Htf;
       [apply String.eqb_eq in Htf;
        rewrite !(gradeQuestion_multiple_choice toLowerCase _ question (or_intror Htf))
       |apply String.eqb_neq in Htf;
        destruct (Question.type question =? "short-answer") eqn:Hsa;
          [apply String.eqb_eq in Hsa;
           rewrite !(gradeQuestion_short_answer toLowerCase _ question Hsa)
          |apply String.eqb_neq in Hsa;
           rewrite !(gradeQuestion_other_type toLowerCase _ question Hmc Htf Hsa)]]].

Lemma entries_same_found (answers1 answers2 : list Answer.t)
    (questions : list Question.t) (entries1 entries2 : list Entry.t) :
  Forall2 (fun q e => gradeQuestion toLowerCase answers1 q = Normal e) questions entries1 ->
  Forall2 (fun q e => gradeQuestion toLowerCase answers2 q = Normal e) questions entries2 ->
  (forall q, In q questions ->
             findUserAnswer answers1 q = findUserAnswer answers2 q) ->
  entries1 = entries2.
Proof.
  intros H1. revert entries2.
  induction H1 as [|q e1 qs es1 He1 _ IH]; intros entries2 H2 Hsame.
  - now inversion H2.
  - inversion H2 as [|q' e2 qs' es2 He2 Hrest]; subst.
    rewrite (gradeQuestion_same_found toLowerCase answers1 answers2 q) in He1
      by (apply Hsame; now left).
    rewrite He1 in He2. injection He2 as <-.
    f_equal. apply IH; [exact Hrest|]. intros q' Hq'. apply Hsame. now right.
Qed.

(** Two submissions in which every question of the quiz finds the same
    answer get the same result. *)
Lemma grade_same_found (quiz0 : Quiz.t) (answers1 answers2 : list Answer.t) :
  (forall q, In q (Quiz.questions quiz0) ->
             findUserAnswer answers1 q = findUserAnswer answers2 q) ->
  grade toLowerCase quiz0 answers1 = grade toLowerCase quiz0 answers2.
Proof.
  intros Hsame.
  destruct (grade_normal toLowerCase quiz0 answers1) as [es1 [Hall1 ->]].
  destruct (grade_normal toLowerCase quiz0 answers2) as [es2 [Hall2 ->]].
  now rewrite (entries_same_found _ _ _ _ _ Hall1 Hall2 Hsame).
Qed.

(** X1. Answers that name no question of the quiz are ignored: a submission
    filtered by a test that keeps every answer naming a question of the quiz
    gets the result of the whole submission. *)
Theorem foreign_answers_ignored
    (keep : Answer.t -> bool) (quiz0 : Quiz.t) (answers0 : list Answer.t) :
  (forall a, In a answers0 -> namesQuestion quiz0 a = true -> keep a = true) ->
  grade toLowerCase quiz0 (filter keep answers0) = grade toLowerCase quiz0 answers0.
Proof.
  intros Hkeep. apply grade_same_found. intros q Hq.
  unfold findUserAnswer. f_equal. apply find_filter_keep.
  intros a Ha Hmatch. apply Hkeep; [exact Ha|].
  unfold namesQuestion. apply existsb_exists. exists q. auto.
Qed.

(** X2. When no two submitted answers name the same question, the order of
    the answers does not matter: every rearrangement of the submission gets
    the same result. *)
Theorem answer_order_irrelevant (quiz0 : Quiz.t) (answers1 answers2 : list Answer.t) :
  Permutation answers1 answers2 ->
  NoDup (map Answer.questionId answers1) ->
  grade toLowerCase quiz0 answers1 = grade toLowerCase quiz0 answers2.
Proof.
  intros Hperm Hnodup. apply grade_same_found. intros q _.
  unfold findUserAnswer. f_equal.
  apply find_unique_perm; [exact Hperm|].
  intros a b Ha Hb Hfa Hfb. apply String.eqb_eq in Hfa, Hfb.
  apply (NoDup_map_eq Answer.questionId answers1); auto. congruence.
Qed.

Lemma countCorrect_app (entries1 entries2 : list Entry.t) :
  countCorrect (entries1 ++ entries2) = countCorrect entries1 + countCorrect entries2.
Proof.
  unfold countCorrect. now rewrite filter_app, length_app.
Qed.

(** X3. Questions are graded one by one: the result of a quiz whose
    questions are two lists put end to end is made of the results of the two
    parts, the entries of the first followed by those of the second, the
    scores and the numbers of questions added. *)
Theorem grade_questions_app
    (questions1 questions2 : list Question.t) (pass : float)
    (answers0 : list Answer.t) :
  exists r1 r2 r,
    grade toLowerCase (Quiz.mk questions1 pass) answers0 = Normal r1 /\
    grade toLowerCase (Quiz.mk questions2 pass) answers0 = Normal r2 /\
    grade toLowerCase (Quiz.mk (questions1 ++ questions2) pass) answers0 = Normal r /\
    Graded.results r = Graded.results r1 ++ Graded.results r2 /\
    Graded.score r = Graded.score r1 + Graded.score r2 /\
    Graded.totalQuestions r = Graded.totalQuestions r1 + Graded.totalQuestions r2.
Proof.
  destruct (grade_normal toLowerCase (Quiz.mk questions1 pass) answers0)
    as [es1 [Hall1 Hrun1]].
  destruct (grade_normal toLowerCase (Quiz.mk questions2 pass) answers0)
    as [es2 [Hall2 Hrun2]].
  destruct (grade_normal toLowerCase (Quiz.mk (questions1 ++ questions2) pass) answers0)
    as [es [Hall Hrun]].
  simpl in Hall1, Hall2, Hall.
  assert (Hes : es = es1 ++ es2).
  { apply (entries_same_found answers0 answers0 (questions1 ++ questions2));
      [exact Hall|now apply Forall2_app|reflexivity]. }
  do 3 eexists. split; [exact Hrun1|]. split; [exact Hrun2|].
  split; [exact Hrun|]. simpl. subst es.
  split; [reflexivity|]. split; [apply countCorrect_app|apply length_app].
Qed.

(** X4. The score is the number of questions exactly when every entry is
    marked correct, and it is zero exactly when none is. *)
Theorem full_score_iff_all_correct (quiz0 : Quiz.t) (answers0 : list Answer.t) :
  exists r,
    grade toLowerCase quiz0 answers0 = Normal r /\
    (Graded.score r = Graded.totalQuestions r <->
     Forall (fun e => Entry.isCorrect e = true) (Graded.results r)) /\
    (Graded.score r = 0 <->
     Forall (fun e => Entry.isCorrect e = false) (Graded.results r)).
Proof.
  destruct (grade_normal toLowerCase quiz0 answers0) as [es [Hall Hrun]].
  apply Forall2_graded_fields in Hall. destruct Hall as [Hlen _].
  eexists. split; [exact Hrun|]. simpl. unfold countCorrect. split.
  - rewrite <- Hlen. apply filter_length_all.
  - apply filter_length_none.
Qed.

(** X5. Of several options marked correct only the first is accepted: the
    text of a later one, when it differs from the text of the first, is
    graded incorrect, and the text reported as correct is that of the
    first. *)
Theorem later_correct_option_rejected
    (answers0 : list Answer.t) (question : Question.t)
    (pre : list Opt.t) (first : Opt.t) (mid : list Opt.t) (later : Opt.t)
    (post : list Opt.t) :
  Question.type question = "multiple-choice" \/ Question.type question = "true-false" ->
  Question.options question = pre ++ first :: mid ++ later :: post ->
  (forall o, In o pre -> Opt.isCorrect o = false) ->
  Opt.isCorrect first = true ->
  Opt.isCorrect later = true ->
  Opt.text later <> Opt.text first ->
  findUserAnswer answers0 question = Some (Opt.text later) ->
  exists entry,
    gradeQuestion toLowerCase answers0 question = Normal entry /\
    Entry.isCorrect entry = false /\
    Entry.correctAnswer entry = Opt.text first.
Proof.
  intros Htype Hopts Hpre Hfirst _ Hdiff Hfound.
  rewrite (gradeQuestion_multiple_choice toLowerCase _ _ Htype).
  rewrite Hopts, (find_first _ _ _ _ Hpre Hfirst), Hfound.
  eexists. split; [reflexivity|]. simpl. split; [|reflexivity].
  now apply String.eqb_neq.
Qed.

Lemma correctAnswer_same (answers1 answers2 : list Answer.t) (question : Question.t)
    (entry1 entry2 : Entry.t) :
  gradeQuestion toLowerCase answers1 question = Normal entry1 ->
  gradeQuestion toLowerCase answers2 question = Normal entry2 ->
  Entry.correctAnswer entry1 = Entry.correctAnswer entry2.
Proof.
  by_type question; intros H1 H2;
    injection H1 as <-; injection H2 as <-.
  - destruct (find _ _); reflexivity.
  - destruct (find _ _); reflexivity.
  - destruct (Question.correctAnswer question) as [ca|];
      [destruct (ca =? "")|]; reflexivity.
  - reflexivity.
Qed.

(** X6. The correct-answer texts of the response do not depend on what was
    submitted: every submission, the empty one included, is sent the same
    sequence of correct answers. *)
Theorem correct_answers_disclosed (quiz0 : Quiz.t) (answers0 : list Answer.t) :
  exists r r0,
    grade toLowerCase quiz0 answers0 = Normal r /\
    grade toLowerCase quiz0 [] = Normal r0 /\
    map Entry.correctAnswer (Graded.results r) =
    map Entry.correctAnswer (Graded.results r0).
Proof.
  destruct (grade_normal toLowerCase quiz0 answers0) as [es [Hall Hrun]].
  destruct (grade_normal toLowerCase quiz0 []) as [es0 [Hall0 Hrun0]].
  do 2 eexists. split; [exact Hrun|]. split; [exact Hrun0|]. simpl.
  clear Hrun Hrun0. revert es0 Hall0.
  induction Hall as [|q e qs es He _ IH]; intros es0 Hall0;
    inversion Hall0 as [|q' e0 qs' es0' He0 Hrest]; subst; [reflexivity|].
  simpl. f_equal; [exact (correctAnswer_same _ _ _ _ _ He He0)|].
  apply IH, Hrest.
Qed.

(** X7. For a short-answer question, two non-empty answers with the same
    lowercased form are graded alike. *)
Theorem short_answer_case_blind
    (answers1 answers2 : list Answer.t) (question : Question.t) (u1 u2 : string) :
  Question.type question = "short-answer" ->
  findUserAnswer answers1 question = Some u1 ->
  findUserAnswer answers2 question = Some u2 ->
  u1 <> "" -> u2 <> "" ->
  toLowerCase u1 = toLowerCase u2 ->
  exists entry1 entry2,
    gradeQuestion toLowerCase answers1 question = Normal entry1 /\
    gradeQuestion toLowerCase answers2 question = Normal entry2 /\
    Entry.isCorrect entry1 = Entry.isCorrect entry2 /\
    Entry.correctAnswer entry1 = Entry.correctAnswer entry2.
Proof.
  intros Htype H1 H2 Hne1 Hne2 Hlower.
  rewrite !(gradeQuestion_short_answer toLowerCase _ _ Htype), H1, H2.
  do 2 eexists. split; [reflexivity|]. split; [reflexivity|].
  apply String.eqb_neq in Hne1, Hne2.
  destruct (Question.correctAnswer question) as [ca|];
    [destruct (ca =? "")|]; simpl; rewrite ?Hne1, ?Hne2, ?Hlower; auto.
Qed.


End GradingProperties.

(** ** The authentication middleware *)

Lemma splitSpace_cons (s : string) :
  exists field fields, splitSpace s = field :: fields.
Proof.
  induction s as [|c rest [field [fields IH]]]; simpl; [eauto|].
  destruct (Ascii.eqb c " "); [eauto|]. rewrite IH. eauto.
Qed.

Lemma splitSpace_no_space (s : string) :
  hasSpace s = false -> splitSpace s = [s].
Proof.
  induction s as [|c rest IH]; simpl; [reflexivity|].
  destruct (Ascii.eqb c " "); simpl; [discriminate|].
  intros H. now rewrite IH.
Qed.

Lemma splitSpace_has_space (s : string) :
  hasSpace s = true -> exists first second fields,
    splitSpace s = first :: second :: fields.
Proof.
  induction s as [|c rest IH]; simpl; [discriminate|].
  destruct (Ascii.eqb c " "); simpl.
  - intros _. destruct (splitSpace_cons rest) as [field [fields ->]]. eauto.
  - intros H. destruct (IH H) as [first [second [fields ->]]]. eauto.
Qed.

(** The fields of [scheme ++ " " ++ rest] are [scheme] and the fields of
    [rest], when [scheme] holds no space. *)
Lemma splitSpace_append (scheme rest : string) :
  hasSpace scheme = false ->
  splitSpace (scheme ++ " " ++ rest)%string = scheme :: splitSpace rest.
Proof.
  induction scheme as [|c scheme IH]; simpl in *; [reflexivity|].
  destruct (Ascii.eqb c " "); simpl; [discriminate|].
  intros H. now rewrite IH.
Qed.

Lemma append_space_truthy (scheme rest : string) :
  truthy (Some (scheme ++ " " ++ rest)%string) = true.
Proof.
  destruct scheme; reflexivity.
Qed.

Lemma tokenOf_second_field (scheme rest : string) :
  hasSpace scheme = false ->
  tokenOf (Some (scheme ++ " " ++ rest)%string) = hd_error (splitSpace rest).
Proof.
  intros H. unfold tokenOf.
  rewrite append_space_truthy, splitSpace_append by exact H.
  simpl. now destruct (splitSpace rest).
Qed.

Section AccountProperties.

Variable verify : string -> option Payload.t.
Variable sign : Payload.t -> string.
Variable newUserId : list User.t -> string.
Variable userSaveOk : list User.t -> User.t -> bool.

(** X9. The middleware answers 401 exactly when there is no
    [Authorization] header or when the header is a non-empty string without
    a space; an empty header is not among these cases: its (empty) token is
    handed to [jwt.verify]. *)
Theorem unauthorized_iff_no_second_field (authHeader : option string) :
  authenticateToken verify authHeader
  = Respond (Message 401 "No authentication token, authorization denied")
  <->
  authHeader = None \/
  exists header, authHeader = Some header /\ header <> "" /\ hasSpace header = false.
Proof.
  unfold authenticateToken, tokenOf.
  destruct authHeader as [header|]; [|split; auto].
  destruct (truthy (Some header)) eqn:Htruthy.
  - apply truthy_true_inv in Htruthy. destruct Htruthy as [s [Hs Hne]].
    injection Hs as <-.
    destruct (hasSpace header) eqn:Hspace.
    + destruct (splitSpace_has_space _ Hspace) as [first [second [fields ->]]].
      simpl. split.
      * destruct (verify second); discriminate.
      * intros [H | [h [Hh [_ H]]]]; [discriminate|].
        injection Hh as <-. congruence.
    + rewrite (splitSpace_no_space _ Hspace). simpl. split; [|reflexivity].
      intros _. right. eauto.
  - apply truthy_false_inv in Htruthy.
    destruct Htruthy as [H | H]; [discriminate|]. injection H as ->. split.
    + destruct (verify ""); discriminate.
    + intros [H | [h [H [Hne _]]]]; [discriminate|].
      injection H as <-. now contradiction Hne.
Qed.

(** X10. The word before the first space is not looked at: two headers that
    differ in it only (["Bearer"], ["Basic"], the empty word, ...) get the
    same outcome. *)
Theorem scheme_ignored (scheme1 scheme2 credentials : string) :
  hasSpace scheme1 = false ->
  hasSpace scheme2 = false ->
  authenticateToken verify (Some (scheme1 ++ " " ++ credentials)%string)
  = authenticateToken verify (Some (scheme2 ++ " " ++ credentials)%string).
Proof.
  intros H1 H2. unfold authenticateToken.
  now rewrite !tokenOf_second_field.
Qed.

(** X11. With a header made of a word, a space and a token without space,
    [jwt.verify] decides alone: 403 when it rejects the token, [next()] with
    the decoded payload as [req.user] when it accepts it; anything that
    follows the token after a further space is ignored. *)
Theorem second_field_decides (scheme token tail : string) :
  hasSpace scheme = false ->
  hasSpace token = false ->
  let outcome :=
    match verify token with
    | Some user => Next user
    | None => Respond (Message 403 "Token is not valid")
    end in
  authenticateToken verify (Some (scheme ++ " " ++ token)%string) = outcome /\
  authenticateToken verify (Some (scheme ++ " " ++ token ++ " " ++ tail)%string) = outcome.
Proof.
  intros Hscheme Htoken outcome. unfold authenticateToken.
  rewrite !tokenOf_second_field by exact Hscheme.
  rewrite splitSpace_append, splitSpace_no_space by exact Htoken.
  simpl. subst outcome. split; now destruct (verify token).
Qed.

(** ** Accounts *)

Lemma find_app_none {A : Type} (f : A -> bool) (l l' : list A) :
  find f l = None -> find f (l ++ l') = find f l'.
Proof.
  induction l as [|x l IH]; simpl; [reflexivity|].
  destruct (f x); [discriminate|exact IH].
Qed.

Lemma findByUsername_none (users : list User.t) (name : string) :
  findByUsername users name = None -> ~ In name (map User.username users).
Proof.
  unfold findByUsername. intros Hnone Hin.
  apply in_map_iff in Hin. destruct Hin as [user [Hname Hin]].
  pose proof (find_none _ _ Hnone user Hin) as Hf. simpl in Hf.
  rewrite Hname, String.eqb_refl in Hf. discriminate.
Qed.

Lemma findByUsername_some (users : list User.t) (name : string) (user : User.t) :
  findByUsername users name = Some user -> In user users /\ User.username user = name.
Proof.
  unfold findByUsername. intros H. apply find_some in H.
  destruct H as [Hin Heq]. split; [exact Hin|now apply String.eqb_eq].
Qed.

(** What [signup] does, case by case. *)
Lemma signup_cases (users : list User.t) (username password : option string) :
  (snd (signup newUserId userSaveOk users username password) = users /\
   forall m, fst (signup newUserId userSaveOk users username password)
             <> Message 201 m) \/
  (exists name pass,
      username = Some name /\ password = Some pass /\
      name <> "" /\ pass <> "" /\
      findByUsername users name = None /\
      signup newUserId userSaveOk users username password
      = (Message 201 "User registered successfully!",
         users ++ [User.mk (newUserId users) name pass])).
Proof.
  unfold signup.
  destruct (truthy username) eqn:Hu; simpl; [|left; split; [auto|discriminate]].
  destruct (truthy password) eqn:Hp; simpl; [|left; split; [auto|discriminate]].
  apply truthy_true_inv in Hu, Hp.
  destruct Hu as [name [-> Hname]], Hp as [pass [-> Hpass]].
  destruct (findByUsername users name) eqn:Hfind;
    [left; split; [auto|discriminate]|].
  destruct (userSaveOk users _); [|left; split; [auto|discriminate]].
  right. exists name, pass. auto 10.
Qed.

(** X12. Signing up keeps the user names of the collection pairwise
    distinct, whatever it answers, and it keeps every stored user: the
    collection it leaves is the one it found with at most one user added at
    the end. *)
Theorem signup_keeps_usernames_unique
    (users : list User.t) (username password : option string) :
  NoDup (map User.username users) ->
  NoDup (map User.username
           (snd (signup newUserId userSaveOk users username password))) /\
  exists added,
    snd (signup newUserId userSaveOk users username password) = users ++ added /\
    List.length added <= 1.
Proof.
  intros Hnodup.
  destruct (signup_cases users username password)
    as [[-> _] | [name [pass [_ [_ [_ [_ [Hnone ->]]]]]]]].
  - split; [exact Hnodup|]. exists []. rewrite app_nil_r.
    split; [reflexivity|simpl; lia].
  - simpl. split; [|eexists; split; [reflexivity|simpl; lia]].
    rewrite map_app. simpl.
    apply NoDup_app; [exact Hnodup|repeat constructor; intros []|].
    intros x Hx [Heq | []]. subst x. now apply (findByUsername_none users name).
Qed.

(** X13. After a sign-up answered 201, logging in with the same user name
    and password succeeds on the collection the sign-up left: the reply
    carries the identifier and the name of the new user and a token signed
    for them. *)
Theorem signup_then_login
    (users : list User.t) (username password : option string) (m : string) :
  fst (signup newUserId userSaveOk users username password) = Message 201 m ->
  exists name,
    username = Some name /\
    login sign (snd (signup newUserId userSaveOk users username password))
      username password
    = LoggedIn (newUserId users) name (sign (Payload.mk (newUserId users) name)).
Proof.
  intros Hreply.
  destruct (signup_cases users username password)
    as [[_ Hnot] | [name [pass [-> [-> [Hname [Hpass [Hnone ->]]]]]]]].
  - now contradiction (Hnot m).
  - exists name. split; [reflexivity|]. simpl. unfold login.
    apply String.eqb_neq in Hname, Hpass. simpl. rewrite Hname, Hpass. simpl.
    unfold findByUsername in *. rewrite (find_app_none _ _ _ Hnone). simpl.
    now rewrite !String.eqb_refl.
Qed.

(** X14. A user name can be registered once: after a sign-up answered 201, a
    further sign-up with the same name, with any password, is answered 400
    and leaves the collection as it is. *)
Theorem signup_twice_rejected
    (users : list User.t) (username password : option string) (m : string)
    (password' : string) :
  fst (signup newUserId userSaveOk users username password) = Message 201 m ->
  password' <> "" ->
  signup newUserId userSaveOk
    (snd (signup newUserId userSaveOk users username password))
    username (Some password')
  = (Message 400 "Username already exists",
     snd (signup newUserId userSaveOk users username password)).
Proof.
  intros Hreply Hpass'.
  destruct (signup_cases users username password)
    as [[_ Hnot] | [name [pass [-> [-> [Hname [Hpass [Hnone ->]]]]]]]].
  - now contradiction (Hnot m).
  - simpl. unfold signup at 1.
    apply String.eqb_neq in Hname, Hpass'. simpl. rewrite Hname, Hpass'. simpl.
    unfold findByUsername in *. rewrite (find_app_none _ _ _ Hnone). simpl.
    now rewrite String.eqb_refl.
Qed.

(** X15. Logging in with a non-empty name and password succeeds exactly when
    the first stored user of that name has that very password (compared as
    stored, character for character); every other case, unknown name or
    wrong password alike, gets the one reply 400 "Invalid credentials". *)
Theorem login_succeeds_iff (users : list User.t) (name pass : string) :
  name <> "" -> pass <> "" ->
  ((exists id uname token,
       login sign users (Some name) (Some pass) = LoggedIn id uname token) <->
   (exists user,
       findByUsername users name = Some user /\ User.password user = pass)) /\
  ((forall user,
       findByUsername users name = Some user -> User.password user <> pass) ->
   login sign users (Some name) (Some pass) = Message 400 "Invalid credentials").
Proof.
  intros Hname Hpass. unfold login.
  apply String.eqb_neq in Hname, Hpass. simpl. rewrite Hname, Hpass. simpl.
  destruct (findByUsername users name) as [user|].
  - destruct (pass =? User.password user) eqn:Heq; simpl.
    + apply String.eqb_eq in Heq. split.
      * split; [intros _; eauto|intros _; eauto].
      * intros Hno. now contradiction (Hno user eq_refl).
    + apply String.eqb_neq in Heq. split; [|reflexivity]. split.
      * intros [id [uname [token H]]]. discriminate.
      * intros [user' [Huser Hp]]. injection Huser as <-. congruence.
  - split; [|reflexivity]. split.
    + intros [id [uname [token H]]]. discriminate.
    + intros [user' [Huser _]]. discriminate.
Qed.

(** X16. The token of a successful login opens the protected routes: sent
    as ["Bearer " ++ token], it passes the middleware with the identifier and
    name of the user as [req.user], and the verification route answers with
    them, provided [jwt.verify] decodes what [jwt.sign] made for this user,
    the token holds no space, and identifiers are not shared in the
    collection. *)
Theorem login_then_verify
    (users : list User.t) (username password : option string)
    (id name token : string) :
  login sign users username password = LoggedIn id name token ->
  verify (sign (Payload.mk id name)) = Some (Payload.mk id name) ->
  hasSpace (sign (Payload.mk id name)) = false ->
  NoDup (map User._id users) ->
  authenticateToken verify (Some ("Bearer " ++ token)%string)
  = Next (Payload.mk id name) /\
  verifyRoute verify users (Some ("Bearer " ++ token)%string) = Verified id name.
Proof.
  intros Hlogin Hverify Hspace Hnodup.
  unfold login in Hlogin.
  destruct (negb (truthy username) || negb (truthy password)); [discriminate|].
  destruct username as [uname|], password as [pass|]; try discriminate.
  destruct (findByUsername users uname) as [user|] eqn:Hfind; [|discriminate].
  destruct (negb (pass =? User.password user)); [discriminate|].
  injection Hlogin as <- <- <-.
  apply findByUsername_some in Hfind. destruct Hfind as [Hin _].
  assert (Hauth :
    authenticateToken verify
      (Some ("Bearer " ++ sign (Payload.mk (User._id user) (User.username user)))%string)
    = Next (Payload.mk (User._id user) (User.username user))).
  { unfold authenticateToken.
    change ("Bearer " ++ ?t)%string with ("Bearer" ++ " " ++ t)%string.
    rewrite (tokenOf_second_field "Bearer" _ eq_refl).
    rewrite (splitSpace_no_space _ Hspace). simpl. now rewrite Hverify. }
  split; [exact Hauth|].
  unfold verifyRoute. rewrite Hauth. simpl.
  destruct (find (fun u => User._id u =? User._id user) users) as [u|] eqn:Hu.
  - apply find_some in Hu. destruct Hu as [Hu Heq].
    apply String.eqb_eq in Heq.
    now rewrite (NoDup_map_eq User._id users u user Hnodup Hu Hin Heq).
  - pose proof (find_none _ _ Hu user Hin) as Hf. simpl in Hf.
    rewrite String.eqb_refl in Hf. discriminate.
Qed.

End AccountProperties.

(** ** Creation of a quiz *)

Lemma saveCourse_ids (course : Course.t) (courses : list Course.t) :
  map Course._id (saveCourse course courses) = map Course._id courses.
Proof.
  unfold saveCourse. rewrite map_map. apply map_ext. intros c.
  destruct (Course._id c =? Course._id course) eqn:Heq; [|reflexivity].
  apply String.eqb_eq in Heq. now rewrite Heq.
Qed.

Lemma saveCourse_in (course course1 : Course.t) (courses : list Course.t) :
  In course courses ->
  Course._id course1 = Course._id course ->
  In course1 (saveCourse course1 courses).
Proof.
  intros Hin Hid. unfold saveCourse. apply in_map_iff.
  exists course. rewrite Hid, String.eqb_refl. auto.
Qed.

Section QuizCreationProperties.

Variable toLowerCase : string -> string.
Variable newQuizId : Db -> string.
Variable storedPassPercentage : option float -> float.
Variable quizSaveOk : Db -> QuizDoc.t -> bool.
Variable courseSaveOk : Db -> Course.t -> bool.

Local Abbreviation create :=
  (createQuiz newQuizId storedPassPercentage quizSaveOk courseSaveOk).

(** The quiz document of lines 87-93 and the course of line 98. *)
Local Abbreviation quizOf db title body course questions :=
  (QuizDoc.mk (newQuizId db) title (QuizBody.description body) (Course._id course)
     (Quiz.mk questions (storedPassPercentage (QuizBody.passPercentage body)))).

Local Abbreviation courseWith course quizId :=
  (Course.mk (Course._id course) (Course.id course) (Course.quizzes course ++ [quizId])).

(** What [createQuiz] does, case by case. *)
Lemma createQuiz_cases (db : Db) (body : QuizBody.t) :
  (exists status message,
      (status = 400 \/ status = 404 \/ status = 500) /\
      create db body = (CreateMessage status message, db)) \/
  (exists title courseId questions course,
      QuizBody.title body = Some title /\ title <> "" /\
      QuizBody.courseId body = Some courseId /\ courseId <> "" /\
      QuizBody.questions body = Some questions /\ questions <> [] /\
      find (fun c => Course.id c =? courseId) (courseDocs db) = Some course /\
      quizSaveOk db (quizOf db title body course questions) = true /\
      (create db body
       = (Created (quizOf db title body course questions),
          mkDb (quizDocs db ++ [quizOf db title body course questions])
            (saveCourse (courseWith course (newQuizId db)) (courseDocs db)))
       \/
       (courseSaveOk
          (mkDb (quizDocs db ++ [quizOf db title body course questions])
             (courseDocs db))
          (courseWith course (newQuizId db)) = false /\
        create db body
        = (CreateMessage 500 "Server error creating quiz",
           mkDb (quizDocs db ++ [quizOf db title body course questions])
             (courseDocs db))))).
Proof.
  unfold createQuiz.
  destruct (truthy (QuizBody.title body)) eqn:Ht; simpl;
    [|left; exists 400; eauto].
  destruct (truthy (QuizBody.courseId body)) eqn:Hc; simpl;
    [|left; exists 400; eauto].
  destruct (noQuestions (QuizBody.questions body)) eqn:Hq;
    [left; exists 400; eauto|].
  apply truthy_true_inv in Ht, Hc.
  destruct Ht as [title [Ht Htitle]], Hc as [courseId [Hc Hcourse]].
  rewrite Ht, Hc.
  destruct (QuizBody.questions body) as [questions|]; [|discriminate].
  assert (Hne : questions <> []) by (intros ->; discriminate).
  destruct (find _ (courseDocs db)) as [course|] eqn:Hfind;
    [|left; exists 404; eauto].
  destruct (quizSaveOk db _) eqn:Hsave1; [|left; exists 500; eauto].
  right. exists title, courseId, questions, course.
  do 7 (split; [auto|]). split; [exact Hsave1|].
  simpl. destruct (courseSaveOk _ _) eqn:Hsave2; [left|right]; auto.
Qed.


(** X18. A creation answered 201 stored the quiz it returns, last in the
    collection and with the questions of the request, and the course of the
    request lists it: the course the quiz points to is in the collection and
    ends with the identifier of the quiz. *)
Theorem created_quiz_stored_and_linked
    (db : Db) (body : QuizBody.t) (newQuiz : QuizDoc.t) :
  fst (create db body) = Created newQuiz ->
  exists questions course,
    QuizBody.questions body = Some questions /\
    questions <> [] /\
    Quiz.questions (QuizDoc.content newQuiz) = questions /\
    quizDocs (snd (create db body)) = quizDocs db ++ [newQuiz] /\
    In course (courseDocs (snd (create db body))) /\
    Some (Course.id course) = QuizBody.courseId body /\
    Course._id course = QuizDoc.course newQuiz /\
    exists listed, Course.quizzes course = listed ++ [QuizDoc._id newQuiz].
Proof.
  intros Hreply.
  destruct (createQuiz_cases db body)
    as [[status [message [_ Hrun]]]
       | (title & courseId & questions & course
          & _ & _ & Hcid & _ & Hq & Hne & Hfind & _ & [Hrun | [_ Hrun]])];
    rewrite Hrun in Hreply |- *; simpl in Hreply; try discriminate.
  injection Hreply as <-.
  apply find_some in Hfind. destruct Hfind as [Hin Hid].
  apply String.eqb_eq in Hid.
  exists questions, (courseWith course (newQuizId db)). simpl.
  repeat split; auto.
  - now apply (saveCourse_in course).
  - now rewrite Hcid, Hid.
  - eauto.
Qed.

(** X19. What the creation route can do to the database: it keeps every
    stored quiz and adds at most one at the end; it keeps the identifiers of
    the courses, in order; a reply 400 or 404 leaves the database as it is,
    and any reply other than 201 leaves the courses as they are. *)
Theorem create_quiz_store (db : Db) (body : QuizBody.t) :
  (exists added,
      quizDocs (snd (create db body)) = quizDocs db ++ added /\
      List.length added <= 1) /\
  map Course._id (courseDocs (snd (create db body))) = map Course._id (courseDocs db) /\
  (forall status message,
      fst (create db body) = CreateMessage status message ->
      courseDocs (snd (create db body)) = courseDocs db /\
      (status <> 500 -> snd (create db body) = db)).
Proof.
  destruct (createQuiz_cases db body)
    as [[status [message [_ ->]]]
       | (title & courseId & questions & course
          & _ & _ & _ & _ & _ & _ & _ & _ & [-> | [_ ->]])]; simpl.
  - split; [exists []; rewrite app_nil_r; split; [reflexivity|simpl; lia]|].
    split; [reflexivity|]. auto.
  - split; [eexists; split; [reflexivity|simpl; lia]|].
    split; [apply saveCourse_ids|]. intros status message H. discriminate.
  - split; [eexists; split; [reflexivity|simpl; lia]|].
    split; [reflexivity|]. intros status message H.
    injection H as <- _. split; [reflexivity|]. intros Hne. now contradiction Hne.
Qed.

(** X20. The two saves of lines 95 and 99 are not one step: when the quiz
    is saved and the save of the course fails, the reply is 500 although the
    quiz is stored, and no course has been changed to list it. *)
Theorem create_quiz_half_done
    (db : Db) (body : QuizBody.t) (added : QuizDoc.t) :
  quizDocs (snd (create db body)) = quizDocs db ++ [added] ->
  (forall doc, fst (create db body) <> Created doc) ->
  fst (create db body) = CreateMessage 500 "Server error creating quiz" /\
  In added (quizDocs (snd (create db body))) /\
  Quiz.questions (QuizDoc.content added) <> [] /\
  courseDocs (snd (create db body)) = courseDocs db.
Proof.
  intros Hadded Hnot.
  destruct (createQuiz_cases db body)
    as [[status [message [_ Hrun]]]
       | (title & courseId & questions & course
          & _ & _ & _ & _ & _ & Hne & _ & _ & [Hrun | [_ Hrun]])];
    rewrite Hrun in Hadded, Hnot |- *; simpl in *.
  - exfalso. apply (f_equal (@List.length _)) in Hadded.
    rewrite length_app in Hadded. simpl in Hadded. lia.
  - exfalso. exact (Hnot _ eq_refl).
  - apply app_inv_head in Hadded. injection Hadded as <-.
    repeat split; auto. apply in_or_app. right. now left.
Qed.

End QuizCreationProperties.

(** ** The further properties at concrete inputs *)

Lemma foreign_answers_ignored_witness :
  grade asciiToLowerCase parisQuiz
    (filter (namesQuestion parisQuiz)
       [Answer.mk "q9" (Some "Rome"); Answer.mk "q1" (Some "Paris")])
  = grade asciiToLowerCase parisQuiz
      [Answer.mk "q9" (Some "Rome"); Answer.mk "q1" (Some "Paris")].
Proof.
  apply (foreign_answers_ignored asciiToLowerCase (namesQuestion parisQuiz)).
  intros a _ H. exact H.
Defined.

Lemma answer_order_irrelevant_witness :
  NoDup (map Answer.questionId
           [Answer.mk "q2" (Some "paris"); Answer.mk "q1" (Some "Paris")]) /\
  grade asciiToLowerCase twoQuiz
    [Answer.mk "q2" (Some "paris"); Answer.mk "q1" (Some "Paris")]
  = grade asciiToLowerCase twoQuiz
      [Answer.mk "q1" (Some "Paris"); Answer.mk "q2" (Some "paris")].
Proof.
  assert (Hnodup : NoDup (map Answer.questionId
                    [Answer.mk "q2" (Some "paris"); Answer.mk "q1" (Some "Paris")])).
  { simpl. repeat constructor; simpl; intuition discriminate. }
  split; [exact Hnodup|].
  apply (answer_order_irrelevant asciiToLowerCase twoQuiz); [apply perm_swap|exact Hnodup].
Defined.

Lemma later_correct_option_rejected_witness :
  exists entry,
    gradeQuestion asciiToLowerCase [Answer.mk "q4" (Some "Lyon")]
      (Question.mk "q4" "multiple-choice" "A French city?"
         [Opt.mk "Rome" false; Opt.mk "Paris" true; Opt.mk "Lyon" true] None)
    = Normal entry /\
    Entry.isCorrect entry = false /\
    Entry.correctAnswer entry = "Paris".
Proof.
  apply (later_correct_option_rejected asciiToLowerCase
           [Answer.mk "q4" (Some "Lyon")]
           (Question.mk "q4" "multiple-choice" "A French city?"
              [Opt.mk "Rome" false; Opt.mk "Paris" true; Opt.mk "Lyon" true] None)
           [Opt.mk "Rome" false] (Opt.mk "Paris" true) [] (Opt.mk "Lyon" true) []);
    try reflexivity.
  - left. reflexivity.
  - intros o [<- | []]. reflexivity.
  - discriminate.
Defined.

Lemma short_answer_case_blind_witness :
  exists entry1 entry2,
    gradeQuestion asciiToLowerCase [Answer.mk "q2" (Some "PARIS")] shortQuestion
      = Normal entry1 /\
    gradeQuestion asciiToLowerCase [Answer.mk "q2" (Some "pAris")] shortQuestion
      = Normal entry2 /\
    Entry.isCorrect entry1 = Entry.isCorrect entry2 /\
    Entry.correctAnswer entry1 = Entry.correctAnswer entry2.
Proof.
  apply (short_answer_case_blind asciiToLowerCase
           [Answer.mk "q2" (Some "PARIS")] [Answer.mk "q2" (Some "pAris")]
           shortQuestion "PARIS" "pAris"); try reflexivity; discriminate.
Defined.

Lemma scheme_ignored_witness :
  authenticateToken demoVerify (Some "Bearer u1.alice")
  = authenticateToken demoVerify (Some "Basic u1.alice").
Proof.
  apply (scheme_ignored demoVerify "Bearer" "Basic" "u1.alice"); reflexivity.
Defined.

Lemma second_field_decides_witness :
  authenticateToken demoVerify (Some "Bearer u1.alice")
    = Next (Payload.mk "u1" "alice") /\
  authenticateToken demoVerify (Some "Bearer u1.alice and more")
    = Next (Payload.mk "u1" "alice").
Proof.
  apply (second_field_decides demoVerify "Bearer" "u1.alice" "and more");
    reflexivity.
Defined.

Lemma signup_keeps_usernames_unique_witness :
  NoDup (map User.username aliceUsers) /\
  NoDup (map User.username
           (snd (signup demoUserId acceptUser aliceUsers (Some "bob") (Some "hunter2")))).
Proof.
  assert (Hnodup : NoDup (map User.username aliceUsers)).
  { simpl. repeat constructor. intros []. }
  split; [exact Hnodup|].
  exact (proj1 (signup_keeps_usernames_unique demoUserId acceptUser aliceUsers
                  (Some "bob") (Some "hunter2") Hnodup)).
Defined.

Lemma signup_then_login_witness :
  exists name,
    Some "bob" = Some name /\
    login demoSign
      (snd (signup demoUserId acceptUser aliceUsers (Some "bob") (Some "hunter2")))
      (Some "bob") (Some "hunter2")
    = LoggedIn (demoUserId aliceUsers) name
        (demoSign (Payload.mk (demoUserId aliceUsers) name)).
Proof.
  apply (signup_then_login demoSign demoUserId acceptUser aliceUsers
           (Some "bob") (Some "hunter2") "User registered successfully!").
  reflexivity.
Defined.

Lemma signup_twice_rejected_witness :
  signup demoUserId acceptUser
    (snd (signup demoUserId acceptUser aliceUsers (Some "bob") (Some "hunter2")))
    (Some "bob") (Some "other")
  = (Message 400 "Username already exists",
     snd (signup demoUserId acceptUser aliceUsers (Some "bob") (Some "hunter2"))).
Proof.
  apply (signup_twice_rejected demoUserId acceptUser aliceUsers
           (Some "bob") (Some "hunter2") "User registered successfully!" "other").
  - reflexivity.
  - discriminate.
Defined.

Lemma login_succeeds_iff_witness :
  login demoSign aliceUsers (Some "alice") (Some "Secret")
  = Message 400 "Invalid credentials".
Proof.
  apply (login_succeeds_iff demoSign aliceUsers "alice" "Secret");
    try discriminate.
  intros user Hfound. injection Hfound as <-. discriminate.
Defined.

Lemma login_then_verify_witness :
  login demoSign aliceUsers (Some "alice") (Some "secret")
    = LoggedIn "u1" "alice" "u1.alice" /\
  authenticateToken demoVerify (Some "Bearer u1.alice")
    = Next (Payload.mk "u1" "alice") /\
  verifyRoute demoVerify aliceUsers (Some "Bearer u1.alice") = Verified "u1" "alice".
Proof.
  split; [reflexivity|].
  apply (login_then_verify demoVerify demoSign aliceUsers
           (Some "alice") (Some "secret") "u1" "alice" "u1.alice");
    try reflexivity.
  simpl. repeat constructor. intros [].
Defined.


Lemma created_quiz_stored_and_linked_witness :
  exists questions course,
    QuizBody.questions demoBody = Some questions /\
    questions <> [] /\
    Quiz.questions
      (QuizDoc.content
         (QuizDoc.mk "z1" "Capitals" None "c1" (Quiz.mk [parisQuestion] 50%float)))
    = questions /\
    quizDocs
      (snd (createQuiz demoQuizId demoPass acceptQuiz acceptCourse demoDb demoBody))
    = quizDocs demoDb
      ++ [QuizDoc.mk "z1" "Capitals" None "c1" (Quiz.mk [parisQuestion] 50%float)] /\
    In course
      (courseDocs
         (snd (createQuiz demoQuizId demoPass acceptQuiz acceptCourse demoDb demoBody))) /\
    Some (Course.id course) = QuizBody.courseId demoBody /\
    Course._id course
    = QuizDoc.course
        (QuizDoc.mk "z1" "Capitals" None "c1" (Quiz.mk [parisQuestion] 50%float)) /\
    exists listed,
      Course.quizzes course
      = listed
        ++ [QuizDoc._id
              (QuizDoc.mk "z1" "Capitals" None "c1" (Quiz.mk [parisQuestion] 50%float))].
Proof.
  apply (created_quiz_stored_and_linked
           demoQuizId demoPass acceptQuiz acceptCourse demoDb demoBody).
  reflexivity.
Defined.

Lemma create_quiz_half_done_witness :
  fst (createQuiz demoQuizId demoPass acceptQuiz refuseCourse demoDb demoBody)
    = CreateMessage 500 "Server error creating quiz" /\
  In (QuizDoc.mk "z1" "Capitals" None "c1" (Quiz.mk [parisQuestion] 50%float))
    (quizDocs
       (snd (createQuiz demoQuizId demoPass acceptQuiz refuseCourse demoDb demoBody))) /\
  Quiz.questions
    (QuizDoc.content
       (QuizDoc.mk "z1" "Capitals" None "c1" (Quiz.mk [parisQuestion] 50%float)))
    <> [] /\
  courseDocs
    (snd (createQuiz demoQuizId demoPass acceptQuiz refuseCourse demoDb demoBody))
  = courseDocs demoDb.
Proof.
  apply (create_quiz_half_done
           demoQuizId demoPass acceptQuiz refuseCourse demoDb demoBody).
  - reflexivity.
  - intros doc. discriminate.
Defined.
